(** * pwnlib.atexception: handlers run on an unhandled exception

    A shallow embedding of [pwnlib/atexception.py].  The module keeps a
    dictionary [_handlers] from callables to their stored arguments,
    captures the interpreter's exception hook when it is loaded, and
    installs [_newhook], which calls the captured hook and then every
    registered handler inside a [try]/[except].

    Python code is embedded in a small state-and-exception monad
    [py_m].  The machine state holds the part of the interpreter the
    module and its callbacks can change (the dictionary and the rest of
    the program's state) and a trace of what the module itself did:
    which callables it called, with which arguments, and what it handed
    to [traceback.print_exception]. *)

From stdpp Require Import gmap strings list.

Set Warnings "-register-all".


(** ** Exception classes *)

(** The built-in classes the module and the specification name. *)
Inductive builtin_class :=
  | BaseException
  | SystemExit
  | KeyboardInterrupt
  | GeneratorExit
  | Exception.

(** A class is built in or defined by a [class name(bases)] statement.
    [Derived name []] is a class without bases. *)
Inductive pyclass :=
  | Builtin (b : builtin_class)
  | Derived (name : string) (bases : list pyclass).

Definition builtin_subclass (b target : builtin_class) : bool :=
  match target, b with
  | BaseException, _ => true
  | SystemExit, SystemExit => true
  | KeyboardInterrupt, KeyboardInterrupt => true
  | GeneratorExit, GeneratorExit => true
  | Exception, Exception => true
  | _, _ => false
  end.

(** [issubclass c target]: [c] is [target] or reaches it through its
    bases.  This is the test an [except target:] clause applies to the
    class of the exception in flight. *)
Fixpoint issubclass (c : pyclass) (target : builtin_class) : bool :=
  match c with
  | Builtin b => builtin_subclass b target
  | Derived _ bases => existsb (fun base => issubclass base target) bases
  end.

Definition ValueError : pyclass := Derived "ValueError" [Builtin Exception].
Definition LookupError : pyclass := Derived "LookupError" [Builtin Exception].
Definition KeyError : pyclass := Derived "KeyError" [LookupError].
Definition TypeError : pyclass := Derived "TypeError" [Builtin Exception].

(** ** Tracebacks *)

Record frame := Frame { co_name : string; lineno : nat }.

(** A traceback object: the frame it was recorded in and the link
    [tb_next] towards the frame that raised ([None] at the end). *)
Inductive traceback :=
  | Tb (tb_frame : frame) (next : option traceback).

Definition tb_frame (tb : traceback) : frame :=
  match tb with Tb f _ => f end.

Definition tb_next (tb : traceback) : option traceback :=
  match tb with Tb _ n => n end.

(** The frames of this module an exception can pass through: the call
    [func( *args, **kwargs)] in [_run_handlers], the call of the old hook
    in [_newhook], and the [del] in [unregister]. *)
Definition run_handlers_frame : frame := Frame "_run_handlers" 49.
Definition newhook_frame : frame := Frame "_newhook" 65.
Definition unregister_frame : frame := Frame "unregister" 37.
Definition register_frame : frame := Frame "register" 27.

Section AtException.

(** [func]: callables as dictionary keys (hashed and compared as the
    dictionary does).  [value]: the Python values passed as arguments
    and carried by exceptions.  [world]: the state of the program
    outside this module. *)
Context {func : Type} `{Countable func}.
Context {value : Type}.
Context {world : Type}.

Definition py_args : Type := list value.
Definition py_kwargs : Type := gmap string value.
Definition entry : Type := (func * (py_args * py_kwargs))%type.

(** The exception instance: a user exception with its payload, the
    [KeyError] a dictionary raises for a missing key, or an error of
    the interpreter with its message. *)
Inductive exc_value :=
  | Instance (payload : value)
  | MissingKey (key : func)
  | Message (text : string).

(** The triple [sys.exc_info()] returns for an exception in flight. *)
Record exc := Exc {
  exc_type : pyclass;
  exc_val : exc_value;
  exc_tb : traceback
}.

(** What callbacks can reach: the dictionary [_handlers] (through
    [register] and [unregister]) and the rest of the program. *)
Record pystate := PyState {
  _handlers : gmap func (py_args * py_kwargs);
  user : world
}.

(** How a call of foreign code ends: it returns (the module discards
    the returned value), or it raises, with the traceback of the frames
    below the caller ([None] when the callee has no Python frame). *)
Inductive outcome :=
  | Returned
  | Raised (typ : pyclass) (val : exc_value) (tb : option traceback).

(** The previous exception hook: an object with a truth value (what
    [if _oldhook:] tests; a function object is true, an object whose
    class defines [__nonzero__] or [__len__] may be false) and foreign
    code called with the exception triple. *)
Record hook := Hook {
  hook_true : pystate -> bool;
  hook_call :
    pyclass -> exc_value -> option traceback -> pystate -> outcome * pystate
}.

(** What the module does, in order. *)
Inductive event :=
  | Called (f : func) (args : py_args) (kwargs : py_kwargs)
  | Printed (typ : pyclass) (val : exc_value) (tb : option traceback)
  | OldHook (typ : pyclass) (val : exc_value) (tb : option traceback).

Record machine := Machine {
  py : pystate;
  trace : list event
}.

(** ** The monad *)

Inductive result (A : Type) :=
  | Ok (a : A)
  | Raise (e : exc).
Arguments Ok {A} a.
Arguments Raise {A} e.

Definition py_m (A : Type) : Type := machine -> result A * machine.

Definition ret {A} (a : A) : py_m A := fun m => (Ok a, m).

Definition bind {A B} (c : py_m A) (k : A -> py_m B) : py_m B :=
  fun m =>
    match c m with
    | (Ok a, m') => k a m'
    | (Raise e, m') => (Raise e, m')
    end.

Definition raise {A} (e : exc) : py_m A := fun m => (Raise e, m).

(** [try: body / except: handler], the handler receiving the triple. *)
Definition try_except {A} (body : py_m A) (handler : exc -> py_m A) : py_m A :=
  fun m =>
    match body m with
    | (Ok a, m') => (Ok a, m')
    | (Raise e, m') => handler e m'
    end.

Definition emit (ev : event) : py_m unit :=
  fun m => (Ok tt, Machine (py m) (trace m ++ [ev])).

Notation "x <- c ;; k" := (bind c (fun x => k))
  (at level 100, c at next level, right associativity).
Notation "c ;;; k" := (bind c (fun _ => k))
  (at level 100, right associativity).

(** [for x in l: body x]. *)
Fixpoint for_each {A} (l : list A) (body : A -> py_m unit) : py_m unit :=
  match l with
  | [] => ret tt
  | x :: l' => body x ;;; for_each l' body
  end.

(** ** Dictionary operations on [_handlers] *)

Definition set_handlers (d : gmap func (py_args * py_kwargs)) (m : machine) : machine :=
  Machine (PyState d (user (py m))) (trace m).

(** [_handlers[k] = v] *)
Definition dict_setitem (k : func) (v : py_args * py_kwargs) : py_m unit :=
  fun m => (Ok tt, set_handlers (<[k := v]> (_handlers (py m))) m).

(** [k in _handlers] *)
Definition dict_contains (k : func) : py_m bool :=
  fun m => (Ok (bool_decide (is_Some (_handlers (py m) !! k))), m).

(** [del _handlers[k]], a [KeyError] when [k] is missing. *)
Definition dict_delitem (fr : frame) (k : func) : py_m unit :=
  fun m =>
    match _handlers (py m) !! k with
    | Some _ => (Ok tt, set_handlers (delete k (_handlers (py m))) m)
    | None => raise (Exc KeyError (MissingKey k) (Tb fr None)) m
    end.

(** The order in which a dictionary lists its items is not specified:
    any function listing each item once will do. *)
Variable items : gmap func (py_args * py_kwargs) -> list entry.
Hypothesis items_perm : forall d, items d ≡ₚ map_to_list d.

(** [_handlers.items()]: a new list of the pairs in the dictionary at
    this moment (the module is Python 2 code, where [items] copies).
    What a callback does to the dictionary afterwards does not change
    the list the loop runs over. *)
Definition dict_items : py_m (list entry) :=
  fun m => (Ok (items (_handlers (py m))), m).

(** ** Foreign code *)

(** What each callable does when called with given arguments, from the
    state it is called in.  A call ends, by returning or by raising;
    it may change the dictionary and the rest of the program. *)
Variable call : func -> py_args -> py_kwargs -> pystate -> outcome * pystate.

(** A call made from frame [fr]: an exception leaving the callee passes
    through [fr], which becomes the first entry of its traceback. *)
Definition run_foreign (fr : frame) (c : pystate -> outcome * pystate) : py_m unit :=
  fun m =>
    match c (py m) with
    | (Returned, s') => (Ok tt, Machine s' (trace m))
    | (Raised typ val tb, s') =>
        (Raise (Exc typ val (Tb fr tb)), Machine s' (trace m))
    end.

(** [func( *args, **kwargs)] *)
Definition invoke (fr : frame) (f : func) (args : py_args) (kwargs : py_kwargs)
  : py_m unit :=
  emit (Called f args kwargs) ;;; run_foreign fr (call f args kwargs).

(** [traceback.print_exception(typ, val, tb)]: the report goes to the
    error stream, which takes it. *)
Definition print_exception (typ : pyclass) (val : exc_value)
  (tb : option traceback) : py_m unit :=
  emit (Printed typ val tb).

(** ** The module *)

(** [def register(func, *args, **kwargs)] *)
Definition register (f : func) (args : py_args) (kwargs : py_kwargs) : py_m func :=
  dict_setitem f (args, kwargs) ;;;
  ret f.

(** [def unregister(func)] *)
Definition unregister (f : func) : py_m unit :=
  present <- dict_contains f ;;
  if present then dict_delitem unregister_frame f else ret tt.

(** The body of the loop of [_run_handlers]. *)
Definition run_handler (e : entry) : py_m unit :=
  let '(f, (args, kwargs)) := e in
  try_except
    (invoke run_handlers_frame f args kwargs)
    (fun caught =>
       if issubclass (exc_type caught) SystemExit then
         (* except SystemExit: pass *)
         ret tt
       else
         (* except: typ, val, tb = sys.exc_info() *)
         let '(typ, val, tb) :=
           (exc_type caught, exc_val caught, exc_tb caught) in
         print_exception typ val (tb_next tb)).

(** [def _run_handlers()] *)
Definition _run_handlers : py_m unit :=
  l <- dict_items ;;
  for_each l run_handler.

(** The module-level [if hasattr(sys, 'excepthook')]: [sys_excepthook]
    is the attribute when [sys] has it. *)
Definition load_oldhook (sys_excepthook : option hook) : option hook :=
  match sys_excepthook with
  | Some h => Some h
  | None => None
  end.

(** The truth value of [_oldhook]: [None] is false, a captured object
    is as true as it says. *)
Definition oldhook_truth (_oldhook : option hook) (s : pystate) : bool :=
  match _oldhook with
  | Some h => hook_true h s
  | None => false
  end.

(** The first statement of [_newhook]:
    [if _oldhook: _oldhook(typ, val, tb)]. *)
Definition run_oldhook (_oldhook : option hook)
  (typ : pyclass) (val : exc_value) (tb : option traceback) : py_m unit :=
  fun m =>
    match _oldhook with
    | Some h =>
        if oldhook_truth _oldhook (py m) then
          (emit (OldHook typ val tb) ;;;
           run_foreign newhook_frame (hook_call h typ val tb)) m
        else ret tt m
    | None => ret tt m
    end.

(** [def _newhook(typ, val, tb)], with the module's [_oldhook]. *)
Definition _newhook (_oldhook : option hook)
  (typ : pyclass) (val : exc_value) (tb : option traceback) : py_m unit :=
  run_oldhook _oldhook typ val tb ;;;
  _run_handlers.

(** ** Calls of [register] as a caller writes them *)

(** An object passed as [func]: one the dictionary can hash, with its
    key, or one it cannot hash. *)
Inductive callable :=
  | Hashable (key : func)
  | Unhashable (obj : value).

(** The call [register(c, *args, **kwargs)] made from frame [fr].  The
    interpreter binds [c] to the parameter [func] of
    [def register(func, *args, **kwargs)] and refuses a keyword of that
    name; the assignment [_handlers[func] = ...] hashes [func] and fails
    when it cannot be hashed; the object passed is the object
    returned. *)
Definition call_register (fr : frame) (c : callable)
  (args : py_args) (kwargs : py_kwargs) : py_m callable :=
  match kwargs !! "func" with
  | Some _ =>
      raise (Exc TypeError
               (Message "register() got multiple values for keyword argument 'func'")
               (Tb fr None))
  | None =>
      match c with
      | Hashable f => register f args kwargs ;;; ret c
      | Unhashable _ =>
          raise (Exc TypeError (Message "unhashable type")
                   (Tb fr (Some (Tb register_frame None))))
      end
  end.

(** ** Reading a trace *)

(** The calls the module made, in order, as dictionary items. *)
Definition invocations (evs : list event) : list entry :=
  omap (fun ev => match ev with
                  | Called f args kwargs => Some (f, (args, kwargs))
                  | _ => None
                  end) evs.

(** The arguments of each call of [f]. *)
Definition calls_of (f : func) (evs : list event) : list (py_args * py_kwargs) :=
  omap (fun ev => match ev with
                  | Called g args kwargs =>
                      if decide (g = f) then Some (args, kwargs) else None
                  | _ => None
                  end) evs.

(** What was handed to [traceback.print_exception]. *)
Definition reports (evs : list event)
  : list (pyclass * exc_value * option traceback) :=
  omap (fun ev => match ev with
                  | Printed typ val tb => Some (typ, val, tb)
                  | _ => None
                  end) evs.

(** The calls of the previous hook. *)
Definition hook_calls (evs : list event)
  : list (pyclass * exc_value * option traceback) :=
  omap (fun ev => match ev with
                  | OldHook typ val tb => Some (typ, val, tb)
                  | _ => None
                  end) evs.

(** The values stored under [f] in a list of items. *)
Definition stored_for (f : func) (l : list entry) : list (py_args * py_kwargs) :=
  omap (fun e : entry => if decide (e.1 = f) then Some e.2 else None) l.

(** ** Calls to the public functions, in sequence *)

Inductive api_call :=
  | CallRegister (f : func) (args : py_args) (kwargs : py_kwargs)
  | CallUnregister (f : func).

Definition run_api (c : api_call) : py_m unit :=
  match c with
  | CallRegister f args kwargs => register f args kwargs ;;; ret tt
  | CallUnregister f => unregister f
  end.

(** What one turn of the loop of [_run_handlers] adds to the trace,
    from the way the call ended. *)
Definition turn_events (f : func) (args : py_args) (kwargs : py_kwargs)
  (o : outcome) : list event :=
  Called f args kwargs ::
  match o with
  | Returned => []
  | Raised typ val tb =>
      if issubclass typ SystemExit then [] else [Printed typ val tb]
  end.

(** How the call of the old hook made by [_newhook] ends ([Ok] when
    there is no old hook to call, or when it is false and not called). *)
Definition oldhook_result (_oldhook : option hook)
  (typ : pyclass) (val : exc_value) (tb : option traceback) (s : pystate)
  : result unit :=
  match _oldhook with
  | None => Ok tt
  | Some h =>
      if hook_true h s then
        match (hook_call h typ val tb s).1 with
        | Returned => Ok tt
        | Raised t v b => Raise (Exc t v (Tb newhook_frame b))
        end
      else Ok tt
  end.

(** The state the loop of [_run_handlers] leaves when it runs the
    callables of [l] in order, each from the state the one before it
    left. *)
Fixpoint loop_state (l : list entry) (s : pystate) : pystate :=
  match l with
  | [] => s
  | (f, (args, kwargs)) :: l' => loop_state l' (call f args kwargs s).2
  end.

(** The callable a call of the public functions is about. *)
Definition api_target (c : api_call) : func :=
  match c with
  | CallRegister f _ _ => f
  | CallUnregister f => f
  end.

(** What such a call leaves stored for its callable. *)
Definition api_stores (c : api_call) : option (py_args * py_kwargs) :=
  match c with
  | CallRegister _ args kwargs => Some (args, kwargs)
  | CallUnregister _ => None
  end.

(** The top level of the module, run once when it is imported:
    [_handlers = {}], the capture of the hook in [_oldhook], and
    [sys.excepthook = _newhook].  [sys_excepthook] is the attribute
    before the import (when there is one) and [u] the state of the rest
    of the program; the result is the new value of [sys.excepthook] and
    the machine the import leaves. *)
Definition import_module (sys_excepthook : option hook) (u : world)
  : (pyclass -> exc_value -> option traceback -> py_m unit) * machine :=
  let _oldhook := load_oldhook sys_excepthook in
  (_newhook _oldhook, Machine (PyState ∅ u) []).

(** ** The monad's equations *)

Lemma bind_ok {A B} (c : py_m A) (k : A -> py_m B) m a m' :
  c m = (Ok a, m') -> bind c k m = k a m'.
Proof. unfold bind. by intros ->. Qed.

Lemma bind_raise {A B} (c : py_m A) (k : A -> py_m B) m e m' :
  c m = (Raise e, m') -> bind c k m = (Raise e, m').
Proof. unfold bind. by intros ->. Qed.

Lemma for_each_app {A} (l1 l2 : list A) (body : A -> py_m unit) m :
  for_each (l1 ++ l2) body m =
  (for_each l1 body ;;; for_each l2 body) m.
Proof.
  revert m. induction l1 as [|x l1 IH]; intros m; simpl.
  - unfold bind, ret. done.
  - unfold bind in *. destruct (body x m) as [[[]|e] m1]; [|done].
    apply IH.
Qed.

(** ** Reading a trace: equations *)

Lemma invocations_app evs1 evs2 :
  invocations (evs1 ++ evs2) = invocations evs1 ++ invocations evs2.
Proof. apply omap_app. Qed.

Lemma calls_of_app f evs1 evs2 :
  calls_of f (evs1 ++ evs2) = calls_of f evs1 ++ calls_of f evs2.
Proof. apply omap_app. Qed.

Lemma reports_app evs1 evs2 :
  reports (evs1 ++ evs2) = reports evs1 ++ reports evs2.
Proof. apply omap_app. Qed.

Lemma hook_calls_app evs1 evs2 :
  hook_calls (evs1 ++ evs2) = hook_calls evs1 ++ hook_calls evs2.
Proof. apply omap_app. Qed.

Lemma calls_of_invocations f evs :
  calls_of f evs = stored_for f (invocations evs).
Proof.
  induction evs as [|[g a kw| |] evs IH]; simpl; [done| |done|done].
  unfold stored_for in *. simpl. rewrite <- IH.
  unfold calls_of at 1. simpl. by destruct (decide (g = f)).
Qed.

(** ** Dictionaries list each key once *)

Lemma stored_for_absent f (l : list entry) :
  f ∉ l.*1 -> stored_for f l = [].
Proof.
  induction l as [|[g v] l IH]; simpl; [done|].
  intros Hnin. apply not_elem_of_cons in Hnin as [Hne Hnin].
  unfold stored_for. simpl. destruct (decide (g = f)); [congruence|].
  by apply IH.
Qed.

Lemma stored_for_present f v (l : list entry) :
  NoDup l.*1 -> (f, v) ∈ l -> stored_for f l = [v].
Proof.
  induction l as [|[g w] l IH]; simpl; intros Hnd Hin.
  - by apply elem_of_nil in Hin.
  - apply NoDup_cons in Hnd as [Hg Hnd]. unfold stored_for. simpl.
    apply elem_of_cons in Hin as [Heq|Hin].
    + injection Heq as <- <-. rewrite decide_True by done.
      f_equal. by apply stored_for_absent.
    + destruct (decide (g = f)) as [->|Hne].
      * exfalso. apply Hg. apply list_elem_of_fmap. by exists (f, v).
      * by apply IH.
Qed.

Lemma items_NoDup d : NoDup (items d).*1.
Proof. rewrite items_perm. apply NoDup_fst_map_to_list. Qed.

Lemma items_lookup d f v : (f, v) ∈ items d <-> d !! f = Some v.
Proof. rewrite items_perm. apply elem_of_map_to_list. Qed.

Lemma stored_for_items d f :
  stored_for f (items d) = match d !! f with Some v => [v] | None => [] end.
Proof.
  destruct (d !! f) as [v|] eqn:Hf.
  - apply stored_for_present; [apply items_NoDup|]. by apply items_lookup.
  - apply stored_for_absent. intros Hin.
    apply list_elem_of_fmap in Hin as [[g v] [-> Hin]].
    apply items_lookup in Hin. simpl in Hf. congruence.
Qed.

(** ** One turn of the loop *)

Lemma invoke_eq fr f args kwargs m :
  invoke fr f args kwargs m =
  match call f args kwargs (py m) with
  | (Returned, s') => (Ok tt, Machine s' (trace m ++ [Called f args kwargs]))
  | (Raised typ val tb, s') =>
      (Raise (Exc typ val (Tb fr tb)),
       Machine s' (trace m ++ [Called f args kwargs]))
  end.
Proof.
  unfold invoke, bind, emit, run_foreign. simpl.
  by destruct (call f args kwargs (py m)) as [[|typ val tb] s'].
Qed.

Lemma run_handler_eq f args kwargs m :
  run_handler (f, (args, kwargs)) m =
  (Ok tt,
   Machine (call f args kwargs (py m)).2
     (trace m ++ turn_events f args kwargs (call f args kwargs (py m)).1)).
Proof.
  unfold run_handler, try_except. rewrite invoke_eq.
  destruct (call f args kwargs (py m)) as [[|typ val tb] s']; simpl; [done|].
  unfold turn_events.
  destruct (issubclass typ SystemExit); simpl.
  - reflexivity.
  - unfold print_exception, emit. simpl. by rewrite <- app_assoc.
Qed.

Lemma invocations_turn f args kwargs o :
  invocations (turn_events f args kwargs o) = [(f, (args, kwargs))].
Proof.
  destruct o as [|typ val tb]; simpl; [done|].
  by destruct (issubclass typ SystemExit).
Qed.

Lemma hook_calls_turn f args kwargs o :
  hook_calls (turn_events f args kwargs o) = [].
Proof.
  destruct o as [|typ val tb]; simpl; [done|].
  by destruct (issubclass typ SystemExit).
Qed.

(** ** The whole loop *)

(** The loop never raises, calls the listed items in order, each once,
    and never calls the old hook. *)
Lemma for_each_run_handler (l : list entry) m :
  exists m' evs,
    for_each l run_handler m = (Ok tt, m') /\
    trace m' = trace m ++ evs /\
    invocations evs = l /\
    hook_calls evs = [].
Proof.
  revert m. induction l as [|[f [args kwargs]] l IH]; intros m; simpl.
  - exists m, []. by rewrite app_nil_r.
  - erewrite bind_ok by apply run_handler_eq.
    edestruct IH as (m' & evs & -> & Htr & Hinv & Hh).
    eexists m', (_ ++ evs). split; [done|].
    split; [by rewrite Htr; simpl; rewrite app_assoc|].
    rewrite invocations_app, hook_calls_app, invocations_turn, hook_calls_turn.
    by rewrite Hinv, Hh.
Qed.

Lemma run_handlers_eq m :
  _run_handlers m = for_each (items (_handlers (py m))) run_handler m.
Proof. done. Qed.



(** ** Crash-time execution of the handlers *)




(** The classes the claim has in mind pass both tests. *)
Lemma interrupts_are_not_errors :
  issubclass (Builtin KeyboardInterrupt) Exception = false /\
  issubclass (Builtin KeyboardInterrupt) SystemExit = false /\
  issubclass (Builtin GeneratorExit) Exception = false /\
  issubclass (Builtin GeneratorExit) SystemExit = false.
Proof. done. Qed.

(** The first statement of [_newhook], case by case. *)
Lemma run_oldhook_eq _oldhook typ val tb m :
  run_oldhook _oldhook typ val tb m =
  match _oldhook with
  | Some h =>
      if hook_true h (py m) then
        match hook_call h typ val tb (py m) with
        | (Returned, s') =>
            (Ok tt, Machine s' (trace m ++ [OldHook typ val tb]))
        | (Raised t v b, s') =>
            (Raise (Exc t v (Tb newhook_frame b)),
             Machine s' (trace m ++ [OldHook typ val tb]))
        end
      else (Ok tt, m)
  | None => (Ok tt, m)
  end.
Proof.
  unfold run_oldhook. destruct _oldhook as [h|]; [|done]. simpl.
  destruct (hook_true h (py m)); [|done].
  unfold bind, emit, run_foreign. simpl.
  by destruct (hook_call h typ val tb (py m)) as [[|t v b] s'].
Qed.

(** C4.  Whatever is registered and whatever the callables do,
    [_run_handlers] returns normally; and [_newhook] ends the way the
    call of the old hook ended (normally when there is none): nothing
    raised by a registered callback leaves it. *)
Theorem handlers_never_propagate _oldhook typ val tb m :
  (_run_handlers m).1 = Ok tt /\
  (_newhook _oldhook typ val tb m).1 = oldhook_result _oldhook typ val tb (py m).
Proof.
  assert (forall m0, (_run_handlers m0).1 = Ok tt) as Hrun.
  { intros m0. rewrite run_handlers_eq.
    by destruct (for_each_run_handler (items (_handlers (py m0))) m0)
      as (m' & evs & -> & _). }
  split; [apply Hrun|].
  unfold _newhook, oldhook_result, bind. rewrite run_oldhook_eq.
  destruct _oldhook as [h|]; [|apply Hrun].
  destruct (hook_true h (py m)); [|apply Hrun].
  destruct (hook_call h typ val tb (py m)) as [[|t v b] s']; simpl;
    [apply Hrun|done].
Qed.

(** The calls one run makes, callable by callable. *)
Lemma run_handlers_calls m :
  exists m' evs,
    _run_handlers m = (Ok tt, m') /\
    trace m' = trace m ++ evs /\
    invocations evs = items (_handlers (py m)) /\
    forall f,
      calls_of f evs =
      match _handlers (py m) !! f with
      | Some (args, kwargs) => [(args, kwargs)]
      | None => []
      end.
Proof.
  rewrite run_handlers_eq.
  destruct (for_each_run_handler (items (_handlers (py m))) m)
    as (m' & evs & Hrun & Htr & Hinv & _).
  exists m', evs. split; [done|]. split; [done|]. split; [done|].
  intros f. rewrite calls_of_invocations, Hinv, stored_for_items.
  by destruct (_handlers (py m) !! f) as [[args kwargs]|].
Qed.

(** Each call the loop records is a call it made: the state it leaves
    is the one the callables produce, run in the order listed. *)
Lemma for_each_loop_state (l : list entry) m :
  py (for_each l run_handler m).2 = loop_state l (py m).
Proof.
  revert m. induction l as [|[f [args kwargs]] l IH]; intros m; simpl; [done|].
  erewrite bind_ok by apply run_handler_eq. by rewrite IH.
Qed.

Lemma run_handlers_runs m :
  exists m' evs,
    _run_handlers m = (Ok tt, m') /\
    trace m' = trace m ++ evs /\
    invocations evs = items (_handlers (py m)) /\
    (forall f,
       calls_of f evs =
       match _handlers (py m) !! f with
       | Some (args, kwargs) => [(args, kwargs)]
       | None => []
       end) /\
    py m' = loop_state (invocations evs) (py m).
Proof.
  destruct (run_handlers_calls m) as (m' & evs & Hrun & Htr & Hinv & Hcalls).
  exists m', evs. split; [done|]. split; [done|]. split; [done|].
  split; [done|].
  rewrite Hinv, <- for_each_loop_state, <- run_handlers_eq. by rewrite Hrun.
Qed.

(** C5, amended.  A crash is a call of [_newhook].  When its first
    statement completes (no old hook, an old hook that is false, or one
    that returns), the hook calls each callable registered at that
    point exactly once, with the arguments stored for it, and calls
    nothing else; and each of these calls is really made: the state the
    hook leaves is the one the callables produce, run one after the
    other in the order of the calls.  When the old hook raises, the
    exception leaves [_newhook] and no callable is called. *)
Theorem each_handler_invoked_once _oldhook typ val tb m :
  match run_oldhook _oldhook typ val tb m with
  | (Ok _, m0) =>
      invocations (trace m0) = invocations (trace m) /\
      exists m' evs,
        _newhook _oldhook typ val tb m = (Ok tt, m') /\
        trace m' = trace m0 ++ evs /\
        invocations evs ≡ₚ map_to_list (_handlers (py m0)) /\
        (forall f,
           calls_of f evs =
           match _handlers (py m0) !! f with
           | Some (args, kwargs) => [(args, kwargs)]
           | None => []
           end) /\
        py m' = loop_state (invocations evs) (py m0)
  | (Raise e, m0) =>
      _newhook _oldhook typ val tb m = (Raise e, m0) /\
      invocations (trace m0) = invocations (trace m)
  end.
Proof.
  assert (invocations (trace (run_oldhook _oldhook typ val tb m).2) =
          invocations (trace m)) as Hquiet.
  { rewrite run_oldhook_eq. destruct _oldhook as [h|]; [|done].
    destruct (hook_true h (py m)); [|done].
    by destruct (hook_call h typ val tb (py m)) as [[|t v b] s']; simpl;
      rewrite invocations_app, app_nil_r. }
  unfold _newhook, bind.
  destruct (run_oldhook _oldhook typ val tb m) as [[[]|e] m0] eqn:Hstep;
    simpl in Hquiet.
  - split; [done|].
    destruct (run_handlers_runs m0) as (m' & evs & Hrun & Htr & Hinv & Hc & Hst).
    exists m', evs. split; [done|]. split; [done|].
    split; [by rewrite Hinv|]. by split.
  - by split.
Qed.

(** ** The hook *)

(** The turns of the loop leave the calls of the old hook alone. *)
Lemma run_handlers_trace m :
  exists m' evs,
    _run_handlers m = (Ok tt, m') /\
    trace m' = trace m ++ evs /\
    invocations evs = items (_handlers (py m)) /\
    hook_calls evs = [].
Proof. rewrite run_handlers_eq. apply for_each_run_handler. Qed.

(** C3, amended.  [_newhook] calls the hook captured when the module
    was loaded first, once, with the three arguments it was given, when
    that hook is true (as every function object is); with no hook
    captured, or a captured object that is false, it makes no such call
    and that is no error.  It then runs the handlers registered at that
    point, each once, provided the call of the old hook, if made,
    returned.  When the old hook raises, the exception leaves
    [_newhook] (the call is in no [try] block) and no handler is
    called. *)
Theorem newhook_calls_oldhook_first (sys_excepthook : option hook) typ val tb m :
  let _oldhook := load_oldhook sys_excepthook in
  exists m' evs,
    (_newhook _oldhook typ val tb m).2 = m' /\
    trace m' = trace m ++ evs /\
    if oldhook_truth _oldhook (py m) then
      exists h rest,
        sys_excepthook = Some h /\
        evs = OldHook typ val tb :: rest /\
        hook_calls rest = [] /\
        match hook_call h typ val tb (py m) with
        | (Returned, s') =>
            _newhook _oldhook typ val tb m =
              _run_handlers (Machine s' (trace m ++ [OldHook typ val tb])) /\
            (_newhook _oldhook typ val tb m).1 = Ok tt /\
            invocations rest = items (_handlers s')
        | (Raised t v b, s') =>
            _newhook _oldhook typ val tb m =
              (Raise (Exc t v (Tb newhook_frame b)),
               Machine s' (trace m ++ [OldHook typ val tb])) /\
            rest = []
        end
    else
      _newhook _oldhook typ val tb m = _run_handlers m /\
      (_newhook _oldhook typ val tb m).1 = Ok tt /\
      hook_calls evs = [] /\
      invocations evs = items (_handlers (py m)).
Proof.
  intros _oldhook. subst _oldhook.
  assert (load_oldhook sys_excepthook = sys_excepthook) as ->
    by (by destruct sys_excepthook).
  unfold _newhook, bind. rewrite run_oldhook_eq.
  destruct sys_excepthook as [h|]; simpl.
  - destruct (hook_true h (py m)).
    + destruct (hook_call h typ val tb (py m)) as [[|t v b] s'] eqn:Hh.
      * destruct (run_handlers_trace
                    (Machine s' (trace m ++ [OldHook typ val tb])))
          as (m' & evs & Hrun & Htr & Hinv & Hhc).
        rewrite Hrun. simpl in *.
        exists m', (OldHook typ val tb :: evs).
        split; [done|]. split; [by rewrite Htr, <- app_assoc|].
        exists h, evs. by rewrite Hh.
      * eexists _, [OldHook typ val tb]. split; [done|]. split; [done|].
        exists h, []. by rewrite Hh.
    + destruct (run_handlers_trace m) as (m' & evs & Hrun & Htr & Hinv & Hhc).
      rewrite Hrun. by exists m', evs.
  - destruct (run_handlers_trace m) as (m' & evs & Hrun & Htr & Hinv & Hhc).
    rewrite Hrun. by exists m', evs.
Qed.

(** ** The registry *)

Lemma register_eq f args kwargs m :
  register f args kwargs m =
  (Ok f,
   Machine (PyState (<[f := (args, kwargs)]> (_handlers (py m))) (user (py m)))
     (trace m)).
Proof. done. Qed.

Lemma unregister_eq f m :
  unregister f m =
  (Ok tt,
   Machine (PyState (delete f (_handlers (py m))) (user (py m))) (trace m)).
Proof.
  unfold unregister, bind, dict_contains, dict_delitem, set_handlers. simpl.
  destruct (_handlers (py m) !! f) as [v|] eqn:Hf.
  - rewrite bool_decide_eq_true_2 by eauto. by rewrite Hf.
  - rewrite bool_decide_eq_false_2 by (by intros [? ?]).
    rewrite delete_id by done. by destruct m as [[d u] t].
Qed.

(** Without the test [if func in _handlers], the [del] statement raises
    for a callable that is not registered. *)
Lemma delitem_missing_raises f m :
  _handlers (py m) !! f = None ->
  dict_delitem unregister_frame f m =
  (Raise (Exc KeyError (MissingKey f) (Tb unregister_frame None)), m).
Proof. unfold dict_delitem. by intros ->. Qed.

Lemma run_api_step (c : api_call) m :
  exists m', run_api c m = (Ok tt, m') /\ trace m' = trace m.
Proof.
  destruct c as [f args kwargs|f]; simpl.
  - erewrite bind_ok by apply register_eq. by eexists.
  - rewrite unregister_eq. by eexists.
Qed.

Lemma run_api_ok (calls : list api_call) m :
  exists m', for_each calls run_api m = (Ok tt, m') /\ trace m' = trace m.
Proof.
  revert m. induction calls as [|c calls IH]; intros m; simpl.
  - by exists m.
  - destruct (run_api_step c m) as (m1 & Hstep & Htr1).
    erewrite bind_ok by exact Hstep.
    destruct (IH m1) as (m' & -> & Htr). exists m'. by rewrite Htr.
Qed.



(** The body of [register]: it returns the key it was given, never
    raises, stores [(args, kwargs)] under it and changes nothing
    else. *)
Theorem register_returns_func f args kwargs m :
  exists m',
    register f args kwargs m = (Ok f, m') /\
    _handlers (py m') = <[f := (args, kwargs)]> (_handlers (py m)) /\
    user (py m') = user (py m) /\
    trace m' = trace m.
Proof. rewrite register_eq. by eexists. Qed.

(** C8, amended.  The call [register(c, *args, **kwargs)] returns the
    object [c] it was given and does not fail, its only effect being
    the new entry, when [c] can be hashed and no keyword is named
    [func].  With a keyword named [func], or with an object that cannot
    be hashed, the call raises [TypeError] and changes nothing. *)
Theorem register_call_returns_callable fr c args kwargs m :
  match kwargs !! "func", c with
  | None, Hashable f =>
      call_register fr c args kwargs m =
        (Ok c,
         Machine
           (PyState (<[f := (args, kwargs)]> (_handlers (py m))) (user (py m)))
           (trace m))
  | _, _ =>
      exists e,
        call_register fr c args kwargs m = (Raise e, m) /\
        exc_type e = TypeError
  end.
Proof.
  unfold call_register. destruct (kwargs !! "func") as [v|].
  - by eexists.
  - destruct c as [f|obj]; [|by eexists].
    by erewrite bind_ok by apply register_eq.
Qed.

(** C9.  [register f] and [unregister f] leave what is stored for any
    other callable as it was. *)
Theorem other_entries_untouched f g args kwargs m :
  g ≠ f ->
  _handlers (py (register f args kwargs m).2) !! g = _handlers (py m) !! g /\
  _handlers (py (unregister f m).2) !! g = _handlers (py m) !! g.
Proof.
  intros Hne. rewrite register_eq, unregister_eq. simpl.
  by rewrite lookup_insert_ne, lookup_delete_ne.
Qed.

(** ** Further properties of the loop *)

Lemma items_empty : items ∅ = [].
Proof.
  apply Permutation_nil_r. rewrite items_perm. by rewrite map_to_list_empty.
Qed.

(** X1.  With nothing registered [_run_handlers] does nothing: it
    returns and leaves the machine as it found it. *)
Theorem run_handlers_without_handlers m :
  _handlers (py m) = ∅ ->
  _run_handlers m = (Ok tt, m).
Proof. intros Hempty. by rewrite run_handlers_eq, Hempty, items_empty. Qed.

Lemma elem_of_invocations f args kwargs evs :
  (f, (args, kwargs)) ∈ invocations evs <-> Called f args kwargs ∈ evs.
Proof.
  unfold invocations. rewrite list_elem_of_omap. split.
  - intros ([g a kw| |] & Hin & Heq); try done. by injection Heq as -> -> ->.
  - intros Hin. by exists (Called f args kwargs).
Qed.

Lemma reports_turn f args kwargs o :
  reports (turn_events f args kwargs o) =
  match o with
  | Returned => []
  | Raised typ val tb =>
      if issubclass typ SystemExit then [] else [(typ, val, tb)]
  end.
Proof.
  destruct o as [|typ val tb]; simpl; [done|].
  by destruct (issubclass typ SystemExit).
Qed.

(** Every report of the loop is for an exception one of its calls
    raised, never for a [SystemExit]; there is at most one report per
    item and at most two events. *)
Lemma for_each_run_handler_reports (l : list entry) m :
  exists m' evs,
    for_each l run_handler m = (Ok tt, m') /\
    trace m' = trace m ++ evs /\
    invocations evs = l /\
    length (reports evs) <= length l /\
    length evs <= 2 * length l /\
    forall typ val tb,
      (typ, val, tb) ∈ reports evs ->
      issubclass typ SystemExit = false /\
      exists f args kwargs s,
        (f, (args, kwargs)) ∈ l /\
        (call f args kwargs s).1 = Raised typ val tb.
Proof.
  revert m. induction l as [|[f [args kwargs]] l IH]; intros m; simpl.
  - exists m, []. rewrite app_nil_r.
    split; [done|]. split; [done|]. split; [done|]. split; [simpl; lia|].
    split; [simpl; lia|].
    intros typ val tb Hin. by apply elem_of_nil in Hin.
  - erewrite bind_ok by apply run_handler_eq.
    edestruct IH as (m' & evs & -> & Htr & Hinv & Hlen & Hlen2 & Hrep).
    eexists m', (_ ++ evs). split; [done|].
    split; [by rewrite Htr; simpl; rewrite app_assoc|].
    split; [by rewrite invocations_app, invocations_turn, Hinv|].
    rewrite reports_app, reports_turn, !length_app.
    destruct (call f args kwargs (py m)) as [o s'] eqn:Hcall. simpl.
    split; [|split].
    + destruct o as [|typ val tb]; simpl; [lia|].
      destruct (issubclass typ SystemExit); simpl; lia.
    + destruct o as [|typ val tb]; simpl; [lia|].
      destruct (issubclass typ SystemExit); simpl; lia.
    + intros typ val tb Hin. apply elem_of_app in Hin as [Hin|Hin].
      * destruct o as [|typ0 val0 tb0]; [by apply elem_of_nil in Hin|].
        destruct (issubclass typ0 SystemExit) eqn:Hexit;
          [by apply elem_of_nil in Hin|].
        apply list_elem_of_singleton in Hin. injection Hin as -> -> ->.
        split; [done|]. exists f, args, kwargs, (py m).
        split; [apply elem_of_cons; by left|]. by rewrite Hcall.
      * destruct (Hrep typ val tb Hin) as (Hexit & g & a & kw & s & Hg & Hc).
        split; [done|]. exists g, a, kw, s.
        split; [apply elem_of_cons; by right|done].
Qed.



(** X3.  One run of [_run_handlers] prints at most one report per
    registered callable and adds at most two events per registered
    callable to the trace. *)
Theorem run_handlers_bounds m :
  exists m' evs,
    _run_handlers m = (Ok tt, m') /\
    trace m' = trace m ++ evs /\
    length (reports evs) <= size (_handlers (py m)) /\
    length evs <= 2 * size (_handlers (py m)).
Proof.
  rewrite run_handlers_eq.
  destruct (for_each_run_handler_reports (items (_handlers (py m))) m)
    as (m' & evs & Hrun & Htr & _ & Hlen & Hlen2 & _).
  rewrite (Permutation_length (items_perm _)) in Hlen, Hlen2.
  unfold entry in *. rewrite length_map_to_list in Hlen, Hlen2.
  by exists m', evs.
Qed.

(** The loop itself never writes to the dictionary: callables that
    leave it alone find it unchanged after the run. *)
Lemma for_each_run_handler_keeps (l : list entry) m :
  (forall f args kwargs s,
     _handlers (call f args kwargs s).2 = _handlers s) ->
  _handlers (py (for_each l run_handler m).2) = _handlers (py m).
Proof.
  intros Hkeep. revert m.
  induction l as [|[f [args kwargs]] l IH]; intros m; simpl; [done|].
  erewrite bind_ok by apply run_handler_eq. rewrite IH. simpl. apply Hkeep.
Qed.

(** X4.  A run does not use the handlers up.  When no callable changes
    the dictionary, [_run_handlers] leaves it as it was, and a second
    run makes the same calls, in the same order, as the first. *)
Theorem handlers_survive_a_run m :
  (forall f args kwargs s,
     _handlers (call f args kwargs s).2 = _handlers s) ->
  exists m1 evs1 m2 evs2,
    _run_handlers m = (Ok tt, m1) /\
    trace m1 = trace m ++ evs1 /\
    _handlers (py m1) = _handlers (py m) /\
    _run_handlers m1 = (Ok tt, m2) /\
    trace m2 = trace m1 ++ evs2 /\
    invocations evs2 = invocations evs1.
Proof.
  intros Hkeep.
  destruct (run_handlers_trace m) as (m1 & evs1 & Hrun1 & Htr1 & Hinv1 & _).
  destruct (run_handlers_trace m1) as (m2 & evs2 & Hrun2 & Htr2 & Hinv2 & _).
  assert (_handlers (py m1) = _handlers (py m)) as Hsame.
  { pose proof (for_each_run_handler_keeps (items (_handlers (py m))) m Hkeep)
      as Hk.
    rewrite <- run_handlers_eq, Hrun1 in Hk. exact Hk. }
  exists m1, evs1, m2, evs2. repeat split; try done.
  by rewrite Hinv2, Hinv1, Hsame.
Qed.

(** ** Further properties of the registry *)

Lemma run_api_eq (c : api_call) m :
  run_api c m =
  (Ok tt,
   Machine
     (PyState
        (match api_stores c with
         | Some v => <[api_target c := v]> (_handlers (py m))
         | None => delete (api_target c) (_handlers (py m))
         end)
        (user (py m)))
     (trace m)).
Proof.
  destruct c as [f args kwargs|f]; simpl.
  - by erewrite bind_ok by apply register_eq.
  - apply unregister_eq.
Qed.

Lemma run_api_lookup (c : api_call) m f :
  _handlers (py (run_api c m).2) !! f =
  if decide (api_target c = f) then api_stores c else _handlers (py m) !! f.
Proof.
  rewrite run_api_eq. simpl.
  destruct (decide (api_target c = f)) as [<-|Hne].
  - destruct (api_stores c); [apply lookup_insert_eq|apply lookup_delete_eq].
  - destruct (api_stores c);
      [by apply lookup_insert_ne|by apply lookup_delete_ne].
Qed.

Lemma for_each_api_cons c (calls : list api_call) m :
  for_each (c :: calls) run_api m = for_each calls run_api (run_api c m).2.
Proof. simpl. by rewrite (bind_ok _ _ _ _ _ (run_api_eq c m)), run_api_eq. Qed.

Lemma api_calls_untouched (calls : list api_call) m f :
  Forall (fun c => api_target c ≠ f) calls ->
  _handlers (py (for_each calls run_api m).2) !! f = _handlers (py m) !! f.
Proof.
  intros Hothers. revert m.
  induction Hothers as [|c calls Hc _ IH]; intros m; [done|].
  rewrite for_each_api_cons, IH, run_api_lookup.
  by rewrite decide_False.
Qed.

(** X5.  Calls of [register] and [unregister] for other callables,
    however many, leave what is stored for [f] as it was. *)
Theorem api_calls_for_others (calls : list api_call) m f :
  Forall (fun c => api_target c ≠ f) calls ->
  _handlers (py (for_each calls run_api m).2) !! f = _handlers (py m) !! f.
Proof. apply api_calls_untouched. Qed.

(** X6.  In a sequence of calls of [register] and [unregister] the last
    call for [f] decides: after it, and after any calls for other
    callables, [f] is stored with the arguments of that call when it
    was a [register], and is not stored when it was an [unregister],
    whatever came before. *)
Theorem last_api_call_decides (before after : list api_call) c m :
  Forall (fun c' => api_target c' ≠ api_target c) after ->
  _handlers (py (for_each (before ++ c :: after) run_api m).2)
    !! api_target c =
  api_stores c.
Proof.
  intros Hothers. rewrite for_each_app.
  destruct (run_api_ok before m) as (m1 & Hrun1 & _).
  erewrite bind_ok by exact Hrun1.
  rewrite for_each_api_cons, api_calls_untouched by done.
  rewrite run_api_lookup. by rewrite decide_True.
Qed.

(** X7.  Calls for two different callables can be made in either
    order: the machine they leave is the same. *)
Theorem api_calls_commute (c1 c2 : api_call) m :
  api_target c1 ≠ api_target c2 ->
  for_each [c1; c2] run_api m = for_each [c2; c1] run_api m.
Proof.
  intros Hne. rewrite !for_each_api_cons. simpl. unfold ret.
  rewrite !run_api_eq. simpl. do 3 f_equal.
  destruct (api_stores c1) as [v1|], (api_stores c2) as [v2|].
  - by apply insert_insert_ne.
  - by rewrite delete_insert_ne.
  - by rewrite delete_insert_ne.
  - apply delete_delete.
Qed.

(** X8.  [register] followed by [unregister] of a callable that was not
    registered leaves the machine as it was; [unregister] followed by
    [register] is the same as [register] alone. *)
Theorem register_unregister_round_trip f args kwargs m :
  _handlers (py m) !! f = None ->
  (register f args kwargs ;;; unregister f) m = (Ok tt, m) /\
  (unregister f ;;; register f args kwargs) m = register f args kwargs m.
Proof.
  intros Hf. split.
  - erewrite bind_ok by apply register_eq. rewrite unregister_eq. simpl.
    rewrite delete_insert_eq, delete_id by done. by destruct m as [[d u] t].
  - erewrite bind_ok by apply unregister_eq. rewrite !register_eq. simpl.
    by rewrite insert_delete_eq.
Qed.

(** X10.  [register] adds one item when its callable was not
    registered and none when it was; [unregister] removes one item when
    its callable was registered and none when it was not. *)
Theorem registry_size f args kwargs m :
  size (_handlers (py (register f args kwargs m).2)) =
    match _handlers (py m) !! f with
    | Some _ => size (_handlers (py m))
    | None => S (size (_handlers (py m)))
    end /\
  size (_handlers (py (unregister f m).2)) =
    match _handlers (py m) !! f with
    | Some _ => pred (size (_handlers (py m)))
    | None => size (_handlers (py m))
    end.
Proof.
  rewrite register_eq, unregister_eq. simpl.
  destruct (_handlers (py m) !! f) as [v|] eqn:Hf.
  - split; [by erewrite map_size_insert_Some|].
    by erewrite map_size_delete_Some.
  - split; [by rewrite map_size_insert_None|]. by rewrite delete_id.
Qed.

(** ** The import *)

(** X11.  Importing the module changes nothing on a crash as long as
    nothing is registered: the hook it installs calls the hook that was
    there before, when that hook is true, once, with the crash's
    triple, and ends as that call ended; it calls nothing else and
    prints nothing.  With no hook before, or one that is false, it does
    nothing at all. *)
Theorem crash_after_import (sys_excepthook : option hook) u typ val tb :
  (forall h, sys_excepthook = Some h ->
     _handlers (hook_call h typ val tb (PyState ∅ u)).2 = ∅) ->
  let '(excepthook, m0) := import_module sys_excepthook u in
  _handlers (py m0) = ∅ /\
  excepthook typ val tb m0 =
    match sys_excepthook with
    | None => (Ok tt, m0)
    | Some h =>
        if hook_true h (py m0) then
          (oldhook_result (Some h) typ val tb (py m0),
           Machine (hook_call h typ val tb (py m0)).2 [OldHook typ val tb])
        else (Ok tt, m0)
    end.
Proof.
  intros Hhook. simpl. split; [done|].
  unfold _newhook, bind. rewrite run_oldhook_eq.
  destruct sys_excepthook as [h|]; simpl.
  - specialize (Hhook h eq_refl). unfold oldhook_result. simpl.
    destruct (hook_true h (PyState ∅ u)).
    + destruct (hook_call h typ val tb (PyState ∅ u)) as [[|t v b] s'] eqn:Hh;
        simpl in *; [|done].
      rewrite run_handlers_eq. simpl. by rewrite Hhook, items_empty.
    + rewrite run_handlers_eq. simpl. by rewrite items_empty.
  - rewrite run_handlers_eq. simpl. by rewrite items_empty.
Qed.

End AtException.

Arguments Ok {func value A} a.
Arguments Raise {func value A} e.

(** * A concrete program

    Callables are numbered, argument values are strings, and the program
    keeps a list of markers the callbacks append to.  The dictionary
    lists its items in the order [map_to_list] gives. *)

Module Scenario.

Definition state : Type := @pystate nat _ _ string (list string).
Definition mach : Type := @machine nat _ _ string (list string).
Definition ending : Type := @outcome nat string.
Definition excepthook : Type := @hook nat _ _ string (list string).

Definition log_crash : nat := 1.
Definition flaky : nat := 2.
Definition safe : nat := 3.
Definition quitter : nat := 4.
Definition cleanup : nat := 6.
Definition meddler : nat := 7.

Definition RuntimeError : pyclass := Derived "RuntimeError" [Builtin Exception].

Definition mark (s : string) (st : state) : state :=
  PyState (_handlers st) (user st ++ [s]).

Definition raised_in (name : string) : option traceback :=
  Some (Tb (Frame name 2) None).

(** What each callable does:
    [log_crash] and [safe] leave a marker; [flaky] raises
    [ValueError("boom")]; [quitter] calls [sys.exit]; [interrupted]
    raises [KeyboardInterrupt]; [cleanup] leaves its [path] argument as
    a marker; [meddler] unregisters [safe]. *)
Definition call (f : nat) (args : list string) (kwargs : gmap string string)
  (st : state) : ending * state :=
  match f with
  | 1 => (Returned, mark "crashed" st)
  | 2 => (Raised ValueError (Instance "boom") (raised_in "flaky"), st)
  | 3 => (Returned, mark "safe" st)
  | 4 => (Raised (Builtin SystemExit) (Instance "0") (raised_in "quitter"), st)
  | 5 => (Raised (Builtin KeyboardInterrupt) (Instance "interrupt") (raised_in "interrupted"), st)
  | 6 => (Returned, mark (default "none" (kwargs !! "path")) st)
  | 7 => (Returned, PyState (delete safe (_handlers st)) (user st))
  | _ => (Returned, st)
  end.

(** The interpreter's own hook, which prints and returns; a hook that
    fails; and a callable object that is false (its class defines
    [__len__], which returns 0) and would print if it were called. *)
Definition print_hook : excepthook :=
  Hook (fun st => true)
    (fun typ val tb st => (Returned, mark "Traceback" st)).

Definition broken_hook : excepthook :=
  Hook (fun st => true)
    (fun typ val tb st =>
       (Raised RuntimeError (Instance "hook failed") (raised_in "broken_hook"),
        st)).

Definition falsy_hook : excepthook :=
  Hook (fun st => false)
    (fun typ val tb st => (Returned, mark "Traceback" st)).

(** Objects passed to [register]: the callable [safe], and a callable
    object that cannot be hashed. *)
Definition safe_object : @callable nat string := Hashable safe.
Definition unhashable_object : @callable nat string := Unhashable "handler".

Definition caller : frame := Frame "<module>" 1.

Definition start : mach := Machine (PyState ∅ []) [].

(** The machine after the given calls of [register] and [unregister]. *)
Definition after_calls (calls : list api_call) : mach :=
  (for_each calls run_api start).2.

Definition no_args : list string * gmap string string := ([], ∅).

Definition with_flaky : mach :=
  after_calls [CallRegister flaky [] ∅; CallRegister safe [] ∅].
Definition with_meddler : mach :=
  after_calls [CallRegister meddler [] ∅; CallRegister safe [] ∅].
Definition with_safe : mach :=
  after_calls [CallRegister safe [] ∅].

Definition path (p : string) : gmap string string := {[ "path" := p ]}.

(** The exception that brought the program down. *)
Definition crash_type : pyclass := Derived "ZeroDivisionError" [Builtin Exception].
Definition crash_val : @exc_value nat string := Instance "division by zero".
Definition crash_tb : option traceback := Some (Tb (Frame "<module>" 1) None).

(** The callables with [meddler] tamed: none of them writes to the
    dictionary. *)
Definition quiet_call (f : nat) (args : list string)
  (kwargs : gmap string string) (st : state) : ending * state :=
  match f with
  | 7 => (Returned, st)
  | _ => call f args kwargs st
  end.

Definition items_refl (d : gmap nat (list string * gmap string string))
  : map_to_list d ≡ₚ map_to_list d := reflexivity (map_to_list d).





Lemma each_handler_invoked_once_witness :
  let m0 :=
    Machine (mark "Traceback" (py with_flaky))
      [OldHook crash_type crash_val crash_tb] in
  invocations (trace m0) = invocations (trace with_flaky) /\
  exists m' evs,
    _newhook map_to_list call (Some print_hook)
      crash_type crash_val crash_tb with_flaky = (Ok tt, m') /\
    trace m' = trace m0 ++ evs /\
    invocations evs ≡ₚ map_to_list (_handlers (py m0)) /\
    (forall f,
       calls_of f evs =
       match _handlers (py m0) !! f with
       | Some (args, kwargs) => [(args, kwargs)]
       | None => []
       end) /\
    py m' = loop_state call (invocations evs) (py m0).
Proof.
  exact (each_handler_invoked_once map_to_list items_refl call
           (Some print_hook) crash_type crash_val crash_tb with_flaky).
Defined.



Lemma other_entries_untouched_witness :
  _handlers (py (register flaky ["again"] ∅ with_flaky).2) !! safe =
    _handlers (py with_flaky) !! safe /\
  _handlers (py (unregister flaky with_flaky).2) !! safe =
    _handlers (py with_flaky) !! safe.
Proof.
  apply (other_entries_untouched flaky safe ["again"] ∅ with_flaky).
  vm_compute. discriminate.
Defined.

(** C3 as stated fails when the captured hook raises: [safe] is
    registered, the old hook is called with the crash's triple, its
    exception leaves [_newhook], and [safe] is never called. *)
Lemma raising_oldhook_skips_handlers :
  let r :=
    _newhook map_to_list call (load_oldhook (Some broken_hook))
      crash_type crash_val crash_tb with_safe in
  _handlers (py with_safe) !! safe = Some no_args /\
  r.1 =
    Raise (Exc RuntimeError (Instance "hook failed")
             (Tb newhook_frame (raised_in "broken_hook"))) /\
  trace r.2 = [OldHook crash_type crash_val crash_tb] /\
  calls_of safe (trace r.2) = [].
Proof. vm_compute. done. Qed.

(** C5 as stated fails when the captured hook raises: [flaky] and
    [safe] are registered, the crash reaches [_newhook], and neither is
    called. *)
Lemma raising_oldhook_invokes_no_handler :
  let r :=
    _newhook map_to_list call (Some broken_hook)
      crash_type crash_val crash_tb with_flaky in
  _handlers (py with_flaky) !! flaky = Some no_args /\
  _handlers (py with_flaky) !! safe = Some no_args /\
  calls_of flaky (trace r.2) = [] /\
  calls_of safe (trace r.2) = [] /\
  invocations (trace r.2) = [] /\
  py r.2 = py with_flaky.
Proof. vm_compute. done. Qed.

(** C8 as stated fails for a keyword named [func] and for an object
    that cannot be hashed: the call raises [TypeError] and nothing is
    registered. *)
Lemma register_call_can_fail :
  let r1 := call_register caller safe_object [] {[ "func" := "x" ]} start in
  let r2 := call_register caller unhashable_object [] ∅ start in
  r1.1 =
    Raise (Exc TypeError
             (Message "register() got multiple values for keyword argument 'func'")
             (Tb caller None)) /\
  r1.2 = start /\
  r2.1 =
    Raise (Exc TypeError (Message "unhashable type")
             (Tb caller (Some (Tb register_frame None)))) /\
  r2.2 = start.
Proof. vm_compute. done. Qed.

(** ** The scenarios of the specification *)

(** A captured hook that is false is not called: [if _oldhook:] skips
    it, and the handlers run. *)
Example scenario_falsy_hook :
  let r := _newhook map_to_list call (load_oldhook (Some falsy_hook))
             crash_type crash_val crash_tb with_safe in
  r.1 = Ok tt /\
  trace r.2 = [Called safe [] ∅] /\
  user (py r.2) = ["safe"].
Proof. vm_compute. done. Qed.

(** [register] used as a decorator returns the object it was given. *)
Example scenario_decorator :
  let r := call_register caller safe_object [] ∅ start in
  r.1 = Ok safe_object /\
  _handlers (py r.2) !! safe = Some no_args.
Proof. vm_compute. done. Qed.

(** No previous hook, one handler that leaves a marker. *)
Example scenario_log_crash :
  let m := after_calls [CallRegister log_crash [] ∅] in
  let r := _newhook map_to_list call (load_oldhook None)
             crash_type crash_val crash_tb m in
  r.1 = Ok tt /\ user (py r.2) = ["crashed"].
Proof. vm_compute. done. Qed.

(** A failing handler and a sound one, after the interpreter's hook. *)
Example scenario_flaky_and_safe :
  let r := _newhook map_to_list call (load_oldhook (Some print_hook))
             crash_type crash_val crash_tb with_flaky in
  r.1 = Ok tt /\
  user (py r.2) = ["Traceback"; "safe"] /\
  trace r.2 =
    [OldHook crash_type crash_val crash_tb;
     Called flaky [] ∅;
     Printed ValueError (Instance "boom") (raised_in "flaky");
     Called safe [] ∅].
Proof. vm_compute. done. Qed.

(** Registered, then unregistered: never called. *)
Example scenario_unregistered :
  let m := after_calls [CallRegister safe [] ∅; CallUnregister safe] in
  let r := _newhook map_to_list call (load_oldhook None)
             crash_type crash_val crash_tb m in
  r.1 = Ok tt /\ trace r.2 = [] /\ user (py r.2) = [].
Proof. vm_compute. done. Qed.

(** The loop runs over the list [items()] built before the first call:
    a handler that unregisters another one does not stop it from being
    called in the same run. *)
Example scenario_meddler :
  let r := _run_handlers map_to_list call with_meddler in
  r.1 = Ok tt /\
  invocations (trace r.2) = [(meddler, no_args); (safe, no_args)] /\
  _handlers (py r.2) !! safe = None.
Proof. vm_compute. done. Qed.

(** ** Instances of the further properties *)

Lemma run_handlers_without_handlers_witness :
  _run_handlers map_to_list call start = (Ok tt, start).
Proof.
  apply (run_handlers_without_handlers map_to_list items_refl call start).
  reflexivity.
Defined.

Lemma run_handlers_bounds_witness :
  exists m' evs,
    _run_handlers map_to_list call with_flaky = (Ok tt, m') /\
    trace m' = trace with_flaky ++ evs /\
    length (reports evs) <= size (_handlers (py with_flaky)) /\
    length evs <= 2 * size (_handlers (py with_flaky)).
Proof.
  exact (run_handlers_bounds map_to_list items_refl call with_flaky).
Defined.

Lemma handlers_survive_a_run_witness :
  exists m1 evs1 m2 evs2,
    _run_handlers map_to_list quiet_call with_flaky = (Ok tt, m1) /\
    trace m1 = trace with_flaky ++ evs1 /\
    _handlers (py m1) = _handlers (py with_flaky) /\
    _run_handlers map_to_list quiet_call m1 = (Ok tt, m2) /\
    trace m2 = trace m1 ++ evs2 /\
    invocations evs2 = invocations evs1.
Proof.
  apply (handlers_survive_a_run map_to_list quiet_call with_flaky).
  intros f args kwargs s.
  do 8 (destruct f as [|f]; [reflexivity|]). reflexivity.
Defined.

Lemma api_calls_for_others_witness :
  _handlers
    (py (for_each [CallRegister flaky ["x"] ∅; CallUnregister quitter]
           run_api with_flaky).2) !! safe =
  _handlers (py with_flaky) !! safe.
Proof.
  apply (api_calls_for_others
           [CallRegister flaky ["x"] ∅; CallUnregister quitter]
           with_flaky safe).
  apply (bool_decide_unpack _). vm_compute. exact I.
Defined.

Lemma last_api_call_decides_witness :
  _handlers
    (py (for_each
           ([CallRegister safe ["old"] ∅] ++
            CallRegister safe ["new"] ∅ :: [CallUnregister flaky])
           run_api with_flaky).2) !! safe =
  Some (["new"], ∅).
Proof.
  apply (last_api_call_decides
           [CallRegister safe ["old"] ∅] [CallUnregister flaky]
           (CallRegister safe ["new"] ∅) with_flaky).
  apply (bool_decide_unpack _). vm_compute. exact I.
Defined.

Lemma api_calls_commute_witness :
  for_each [CallRegister flaky ["x"] ∅; CallUnregister safe] run_api with_flaky =
  for_each [CallUnregister safe; CallRegister flaky ["x"] ∅] run_api with_flaky.
Proof.
  apply (api_calls_commute (CallRegister flaky ["x"] ∅) (CallUnregister safe)
           with_flaky).
  vm_compute. discriminate.
Defined.

Lemma register_unregister_round_trip_witness :
  bind (register cleanup [] (path "x")) (fun _ => unregister cleanup)
    with_flaky = (Ok tt, with_flaky) /\
  bind (unregister cleanup) (fun _ => register cleanup [] (path "x"))
    with_flaky = register cleanup [] (path "x") with_flaky.
Proof.
  apply (register_unregister_round_trip cleanup [] (path "x") with_flaky).
  vm_compute. reflexivity.
Defined.

Lemma crash_after_import_witness :
  let '(excepthook, m0) :=
    import_module map_to_list call (Some print_hook) [] in
  _handlers (py m0) = ∅ /\
  excepthook crash_type crash_val crash_tb m0 =
    (Ok tt,
     Machine (PyState ∅ ["Traceback"])
       [OldHook crash_type crash_val crash_tb]).
Proof.
  apply (crash_after_import map_to_list items_refl call (Some print_hook) []
           crash_type crash_val crash_tb).
  intros h Hh. injection Hh as <-. reflexivity.
Defined.

End Scenario.
